(** * index.py: first Open Library search hit, as title / author / ISBN-10

    A shallow embedding of the script [index.py] and the properties of its
    field extraction and of its output.

    The script is a straight line of assignments to module globals, one
    [for] loop with a [break], and one [print].  It is modelled the way it
    is written: every statement is a computation over the interpreter state
    (the module globals and what has been written to standard output) that
    either finishes or raises a Python exception. *)

From Stdlib Require Import ZArith String Ascii List DecimalString.
From Stdlib Require Import Floats.SpecFloat.
From stdpp Require Import base gmap strings list.

Import ListNotations.
Local Open Scope string_scope.
Local Set Warnings "-register-all".

(** ** Decoded JSON values

    What [response.json()] can return: [None], booleans, integers, floats,
    strings, lists and dicts with string keys.  A string is the sequence
    of its characters, one [ascii] each.  A dict keeps its insertion order
    (iteration over it follows that order), so it is an association list;
    the decoder never produces the same key twice. *)

Inductive value : Type :=
| VNone
| VBool (b : bool)
| VInt (n : Z)
| VFloat (f : spec_float)
| VStr (s : string)
| VList (l : list value)
| VDict (d : list (string * value)).

(** ** Exceptions and results *)

Inductive exn : Type :=
| AttributeError
| TypeError
| IndexError
| KeyError
| NameError
| JSONDecodeError
| RequestException.

Inductive result (A : Type) : Type :=
| Ok (a : A)
| Raise (e : exn).

Arguments Ok {A} a.
Arguments Raise {A} e.

Definition is_ok {A} (r : result A) : bool :=
  match r with Ok _ => true | Raise _ => false end.

(** ** The Python operations the script applies to decoded values *)

Module Py.

(** First binding of [k] in a dict. *)
Fixpoint dict_lookup (k : string) (d : list (string * value)) : option value :=
  match d with
  | [] => None
  | (k', v) :: d' => if String.eqb k k' then Some v else dict_lookup k d'
  end.

(** [o.get(k)]: only a dict has the method; a missing key gives [None]. *)
Definition get (o : value) (k : string) : result value :=
  match o with
  | VDict d => Ok (match dict_lookup k d with Some v => v | None => VNone end)
  | _ => Raise AttributeError
  end.

(** [o[0]]: the first element of a list, the first character of a string;
    a decoded dict has string keys only, so the key [0] is never there. *)
Definition getitem0 (o : value) : result value :=
  match o with
  | VList (x :: _) => Ok x
  | VList [] => Raise IndexError
  | VStr (String c _) => Ok (VStr (String c EmptyString))
  | VStr EmptyString => Raise IndexError
  | VDict _ => Raise KeyError
  | VNone | VBool _ | VInt _ | VFloat _ => Raise TypeError
  end.

(** The characters of a string, each as a string of length one. *)
Fixpoint chars (s : string) : list value :=
  match s with
  | EmptyString => []
  | String c s' => VStr (String c EmptyString) :: chars s'
  end.

(** What [for i in o] binds [i] to, in order: the elements of a list, the
    characters of a string, the keys of a dict. *)
Definition iter (o : value) : result (list value) :=
  match o with
  | VList l => Ok l
  | VStr s => Ok (chars s)
  | VDict d => Ok (map (fun kv => VStr (fst kv)) d)
  | VNone | VBool _ | VInt _ | VFloat _ => Raise TypeError
  end.

(** [len(o)]. *)
Definition len (o : value) : result nat :=
  match o with
  | VStr s => Ok (String.length s)
  | VList l => Ok (List.length l)
  | VDict d => Ok (List.length d)
  | VNone | VBool _ | VInt _ | VFloat _ => Raise TypeError
  end.

End Py.

(** ** Rendering for [print]

    [print] writes [str(o)] of each argument.  The [str] of a string is
    the string itself, every other value is written as its [repr].  The
    [repr] of a float and of a string (quoting and escapes) belong to the
    Python runtime, not to the script, and are parameters here. *)

Section Rendering.

Variable repr_float : spec_float -> string.
Variable repr_str : string -> string.

Definition repr_int (n : Z) : string := NilZero.string_of_int (Z.to_int n).

Fixpoint repr (v : value) : string :=
  match v with
  | VNone => "None"
  | VBool true => "True"
  | VBool false => "False"
  | VInt n => repr_int n
  | VFloat f => repr_float f
  | VStr s => repr_str s
  | VList l => "[" ++ String.concat ", " (map repr l) ++ "]"
  | VDict d =>
      "{" ++ String.concat ", "
               (map (fun kv => let '(k, x) := kv in repr_str k ++ ": " ++ repr x) d)
          ++ "}"
  end.

Definition str (v : value) : string :=
  match v with
  | VStr s => s
  | _ => repr v
  end.

(** The line feed, and the text that [print] writes for the objects
    [objs] and the separator [sep]: the renderings joined by [sep], then
    the default [end], a line feed. *)
Definition LF : string := String "010"%char EmptyString.

Definition print_text (objs : list value) (sep : string) : string :=
  String.concat sep (map str objs) ++ LF.

End Rendering.

(** ** The interpreter state and its monad

    The module globals are a finite map from names to the objects bound to
    them; standard output is the text written so far.  A computation takes
    the state and gives back a value or the exception raised, together with
    the state it leaves: what was assigned or printed before an exception
    stays assigned and printed. *)

Record world : Type := World {
  globals : gmap string value;
  stdout : string
}.

Definition fresh : world := World ∅ "".

Definition M (A : Type) : Type := world -> result A * world.

#[global] Instance M_ret : MRet M := fun A a w => (Ok a, w).

#[global] Instance M_bind : MBind M := fun A B k m w =>
  match m w with
  | (Ok a, w') => k a w'
  | (Raise e, w') => (Raise e, w')
  end.

#[global] Instance result_ret : MRet result := fun A a => Ok a.

#[global] Instance result_bind : MBind result := fun A B k r =>
  match r with
  | Ok a => k a
  | Raise e => Raise e
  end.

(** The outcome of a pure operation, the state untouched. *)
Definition lift {A} (r : result A) : M A := fun w => (r, w).

(** Reading a global: an unbound name raises [NameError]. *)
Definition var (x : string) : M value := fun w =>
  match globals w !! x with
  | Some v => (Ok v, w)
  | None => (Raise NameError, w)
  end.

Definition store (x : string) (v : value) : M unit := fun w =>
  (Ok tt, World (<[x := v]> (globals w)) (stdout w)).

Definition write (s : string) : M unit := fun w =>
  (Ok tt, World (globals w) (stdout w ++ s)).

(** Expressions and the assignment statement [x = e]. *)
Definition const (v : value) : M value := mret v.
Definition get (e : M value) (k : string) : M value := o ← e; lift (Py.get o k).
Definition item0 (e : M value) : M value := o ← e; lift (Py.getitem0 o).
Definition len (e : M value) : M nat := o ← e; lift (Py.len o).
Definition assign (x : string) (e : M value) : M unit := v ← e; store x v.

(** [for x in e: body], where the body says whether it ran to its end or
    left the loop through [break]. *)
Inductive flow : Type := Next | Break.

Fixpoint for_each (x : string) (items : list value) (body : M flow) : M unit :=
  match items with
  | [] => mret tt
  | v :: rest =>
      store x v;;
      f ← body;
      match f with
      | Break => mret tt
      | Next => for_each x rest body
      end
  end.

Definition for_in (x : string) (e : M value) (body : M flow) : M unit :=
  o ← e; items ← lift (Py.iter o); for_each x items body.

(** ** The script

    [requests.get(url)] is the environment's part: it raises, or gives a
    response with a status code and a body.  The bindings of [url] and
    [response] are never rebound or read again after line 7 and are kept as
    the argument of the script instead of entries of the globals.
    [response.json()] is the library's decoder of the body, a parameter. *)

Record Response : Type := {
  status_code : Z;
  body : string
}.

Section Script.

Variable json : string -> result value.
Variable repr_float : spec_float -> string.
Variable repr_str : string -> string.

(** [data = response.json()] *)
Definition data_stmt (response : Response) : M unit :=
  assign "data" (lift (json (body response))).

(** [first_result = data.get("docs")[0]] *)
Definition first_result_stmt : M unit :=
  assign "first_result" (item0 (get (var "data") "docs")).

(** [book_title = first_result.get("title")] *)
Definition book_title_stmt : M unit :=
  assign "book_title" (get (var "first_result") "title").

(** [author_name = first_result.get("author_name")[0]] *)
Definition author_name_stmt : M unit :=
  assign "author_name" (item0 (get (var "first_result") "author_name")).

(** The body of the loop: [if len(i) == 10: isbn_string = i; break] *)
Definition isbn_body : M flow :=
  n ← len (var "i");
  if Nat.eqb n 10 then assign "isbn_string" (var "i");; mret Break
  else mret Next.

(** [isbn_string = ""], [isbn_results = first_result.get("isbn")] and the
    loop over [isbn_results]. *)
Definition isbn_stmts : M unit :=
  assign "isbn_string" (const (VStr ""));;
  assign "isbn_results" (get (var "first_result") "isbn");;
  for_in "i" (var "isbn_results") isbn_body.

(** Lines 8 to 19: the field extractor. *)
Definition extraction : M unit :=
  first_result_stmt;; book_title_stmt;; author_name_stmt;; isbn_stmts.

(** The three values the extraction leaves for [print]. *)
Definition triple : M (value * value * value) :=
  t ← var "book_title"; a ← var "author_name"; s ← var "isbn_string";
  mret (t, a, s).

(** [print(book_title, author_name, isbn_string, sep='\n')] *)
Definition print_stmt : M unit :=
  tas ← triple;
  let '(t, a, s) := tas in
  write (print_text repr_float repr_str [t; a; s] LF).

(** Lines 5 to 21, given what [requests.get] did. *)
Definition script (fetched : result Response) : M unit :=
  response ← lift fetched;
  data_stmt response;; extraction;; print_stmt.

(** The extractor on a decoded body: the triple it leaves, or the
    exception it raises, started from the state [w]. *)
Definition extract_from (w : world) (data : value) : result (value * value * value) :=
  fst ((store "data" data;; extraction;; triple) w).

Definition extractor (data : value) : result (value * value * value) :=
  extract_from fresh data.

(** Decoding a body and extracting from it, started from the state [w]. *)
Definition decode_extract (w : world) (b : string)
  : result (value * value * value) * world :=
  (assign "data" (lift (json b));; extraction;; triple) w.

End Script.

(** ** The extraction as a function of the decoded body

    What the loop over the items selects: the first item of length 10, if
    it gets that far without [len] raising.  [extract_from_pure] below
    shows that the statements of the script compute [extract_pure]. *)

Fixpoint scan (items : list value) : result (option value) :=
  match items with
  | [] => Ok None
  | v :: rest =>
      n ← Py.len v;
      if Nat.eqb n 10 then Ok (Some v) else scan rest
  end.

Definition isbn_of (first : value) : result value :=
  r ← Py.get first "isbn";
  items ← Py.iter r;
  o ← scan items;
  mret (default (VStr "") o).

Definition author_of (first : value) : result value :=
  an ← Py.get first "author_name"; Py.getitem0 an.

Definition first_of (data : value) : result value :=
  docs ← Py.get data "docs"; Py.getitem0 docs.

Definition extract_pure (data : value) : result (value * value * value) :=
  first ← first_of data;
  t ← Py.get first "title";
  a ← author_of first;
  s ← isbn_of first;
  mret (t, a, s).

(** Decoding, then extracting. *)
Definition pipeline (json : string -> result value) (b : string)
  : result (value * value * value) :=
  d ← json b; extract_pure d.

(** ** Vocabulary of the properties *)

Definition not10 (s : string) : Prop := String.length s <> 10.

(** The number of line feeds in a text: the number of lines of a text that
    ends with one. *)
Fixpoint lines (s : string) : nat :=
  match s with
  | EmptyString => 0
  | String c s' => (if Ascii.eqb c "010"%char then 1 else 0) + lines s'
  end.

(** The extractor fails on the decoded body [d] with the exception [e],
    and so does every run of the script that decodes [d], without writing
    anything. *)
Definition fatal (d : value) (e : exn) : Prop :=
  extractor d = Raise e
  /\ forall json repr_float repr_str response w,
       json (body response) = Ok d ->
       fst (script json repr_float repr_str (Ok response) w) = Raise e
       /\ stdout (snd (script json repr_float repr_str (Ok response) w)) = stdout w.

(** The ISBN of the first document [first] is [s]: from every state in
    which [first_result] is bound to [first], lines 14 to 19 finish and
    leave [isbn_string] bound to [s]; and the extractor returns [s] as the
    ISBN whenever the steps before succeed. *)
Definition isbn_is (first s : value) : Prop :=
  (forall g out, g !! "first_result" = Some first ->
     exists g', isbn_stmts (World g out) = (Ok tt, World g' out)
                /\ g' !! "isbn_string" = Some s)
  /\ (forall d docs t an a,
        Py.get d "docs" = Ok docs -> Py.getitem0 docs = Ok first ->
        Py.get first "title" = Ok t ->
        Py.get first "author_name" = Ok an -> Py.getitem0 an = Ok a ->
        extractor d = Ok (t, a, s)).

(** The ISBN step raises [e] on the first document [first]: lines 14 to 19
    raise it from every state in which [first_result] is bound to [first],
    and the extractor fails with it whenever the steps before succeed. *)
Definition isbn_raises (first : value) (e : exn) : Prop :=
  (forall g out, g !! "first_result" = Some first ->
     exists g', isbn_stmts (World g out) = (Raise e, World g' out))
  /\ (forall d docs t an a,
        Py.get d "docs" = Ok docs -> Py.getitem0 docs = Ok first ->
        Py.get first "title" = Ok t ->
        Py.get first "author_name" = Ok an -> Py.getitem0 an = Ok a ->
        fatal d e).

(** ** Example bodies *)

Definition search_body (first : value) : value :=
  VDict [("numFound", VInt 1); ("docs", VList [first])].

Definition dick : value := VList [VStr "Philip K. Dick"; VStr "Someone Else"].

Definition isbns : list string := ["9780575094195"; "0575094194"; "1234567890123"].

Definition clans : value :=
  VDict [("title", VStr "Clans of the Alphane Moon");
         ("author_name", dick);
         ("isbn", VList (map VStr isbns))].

Definition clans_no_isbn : list (string * value) :=
  [("title", VStr "Clans of the Alphane Moon"); ("author_name", dick)].

Definition clans_empty_isbn : list (string * value) :=
  [("title", VStr "Clans of the Alphane Moon"); ("author_name", dick);
   ("isbn", VList [])].

Definition untitled : list (string * value) :=
  [("author_name", dick); ("isbn", VList (map VStr isbns))].

Definition two_line_title : value :=
  VDict [("title", VStr ("Clans of the" ++ LF ++ "Alphane Moon"));
         ("author_name", dick);
         ("isbn", VList [VStr "0441116802"])].

Definition clans_globals : gmap string value :=
  <["book_title" := VStr "Clans of the Alphane Moon"]>
    (<["author_name" := VStr "Philip K. Dick"]>
       (<["isbn_string" := VStr "0441116802"]> ∅)).

Definition ok_response : Response := {| status_code := 200; body := "{}" |}.
Definition not_found_response : Response := {| status_code := 404; body := "{}" |}.

(** Decoders for the examples: each knows one body. *)
Definition json_clans (b : string) : result value :=
  if String.eqb b "{}" then Ok (search_body clans) else Raise JSONDecodeError.

Definition json_untitled (b : string) : result value :=
  if String.eqb b "{}" then Ok (search_body (VDict untitled)) else Raise JSONDecodeError.

Definition json_two_lines (b : string) : result value :=
  if String.eqb b "{}" then Ok (search_body two_line_title) else Raise JSONDecodeError.

(** ** Vocabulary of the further properties *)

(** The names the script binds. *)
Definition script_names : list string :=
  ["data"; "first_result"; "book_title"; "author_name"; "isbn_string";
   "isbn_results"; "i"].

(** A computation leaves every global outside [names] as it found it,
    whether it finishes or raises. *)
Definition preserves {A} (names : list string) (m : M A) : Prop :=
  forall w x, ~ In x names -> globals (snd (m w)) !! x = globals w !! x.

(** An entry that has a length, and not the length 10. *)
Definition sized_not10 (v : value) : Prop :=
  exists n, Py.len v = Ok n /\ n <> 10.

Definition is_dict (v : value) : bool :=
  match v with VDict _ => true | _ => false end.

(** The values that can be neither subscripted nor iterated and have no
    length: [None], booleans and numbers. *)
Definition is_scalar (v : value) : bool :=
  match v with
  | VNone | VBool _ | VInt _ | VFloat _ => true
  | VStr _ | VList _ | VDict _ => false
  end.

(** The text the script prints for a triple. *)
Definition three_lines (repr_float : spec_float -> string) (repr_str : string -> string)
    (t a s : value) : string :=
  str repr_float repr_str t ++ LF ++ str repr_float repr_str a ++ LF
  ++ str repr_float repr_str s ++ LF.

(** Further example documents. *)
Definition ubik : list (string * value) :=
  [("title", VStr "Ubik"); ("author_name", VStr "Philip K. Dick");
   ("isbn", VStr "0679736646")].

Definition valis : list (string * value) :=
  [("key", VStr "/works/OL2172516W"); ("title", VStr "VALIS");
   ("author_name", VList [VStr "Philip K. Dick"]);
   ("isbn", VList [VStr "9780679734468"; VInt 679734465; VStr "0679734465"]);
   ("language", VList [VStr "eng"])].

Definition valis_bare : list (string * value) :=
  [("isbn", VList [VStr "9780679734468"; VInt 679734465; VStr "0679734465"]);
   ("author_name", VList [VStr "Philip K. Dick"]);
   ("title", VStr "VALIS")].

Definition valis_keyed : list (string * value) :=
  [("title", VStr "VALIS");
   ("author_name", VList [VStr "Philip K. Dick"]);
   ("isbn", VDict [("9780679734468", VStr "paperback"); ("0679734465", VStr "paperback")])].

Definition valis_nested : list (string * value) :=
  [("title", VStr "VALIS");
   ("author_name", VList [VStr "Philip K. Dick"]);
   ("isbn", VList [VStr "9780679734468";
                   VList [VInt 0; VInt 6; VInt 7; VInt 9; VInt 7; VInt 3; VInt 4;
                          VInt 4; VInt 6; VInt 5];
                   VInt 679734465])].

Definition json_valis (b : string) : result value :=
  if String.eqb b "{}" then Ok (search_body (VDict valis)) else Raise JSONDecodeError.

Definition garbled_response : Response := {| status_code := 200; body := "<html>" |}.

Definition with_url : world :=
  World {["url" := VStr "https://openlibrary.org/search.json?q=clans+of+the+alphane+moon"]} "".

(** The first line of a text: its characters up to the first line feed,
    when it has one. *)
Fixpoint first_line (s : string) : option string :=
  match s with
  | EmptyString => None
  | String c s' =>
      if Ascii.eqb c "010"%char then Some EmptyString
      else option_map (String c) (first_line s')
  end.

(** A first document with an author and neither a title nor an ISBN, and
    the decoder that gives it. *)
Definition untitled_no_isbn : list (string * value) := [("author_name", dick)].

Definition json_untitled_no_isbn (b : string) : result value :=
  if String.eqb b "{}" then Ok (search_body (VDict untitled_no_isbn))
  else Raise JSONDecodeError.

(** ** Running the statements *)

Ltac run :=
  unfold assign, get, item0, len, const, lift, var, store, write;
  unfold mbind, mret, M_bind, M_ret, result_bind, result_ret; simpl.

Ltac pure := cbn [mbind mret result_bind result_ret].
Tactic Notation "pure" "in" hyp(H) := cbn [mbind mret result_bind result_ret] in H.

Ltac lookups :=
  simpl;
  repeat (rewrite lookup_insert_eq || rewrite lookup_insert_ne by discriminate);
  simpl.

Ltac raised := eexists; reflexivity.

Lemma for_each_isbn (items : list value) (g : gmap string value) (out : string) :
  match scan items with
  | Ok o =>
      exists g', for_each "i" items isbn_body (World g out) = (Ok tt, World g' out)
        /\ g' !! "isbn_string"
           = match o with Some v => Some v | None => g !! "isbn_string" end
        /\ (forall x, x <> "i" -> x <> "isbn_string" -> g' !! x = g !! x)
  | Raise e =>
      exists g', for_each "i" items isbn_body (World g out) = (Raise e, World g' out)
  end.
Proof.
  revert g. induction items as [|v rest IH]; intros g; simpl.
  - exists g. repeat split; reflexivity.
  - unfold isbn_body. run. rewrite lookup_insert_eq.
    destruct (Py.len v) as [n|e]; simpl.
    + destruct (Nat.eqb n 10); simpl.
      * rewrite lookup_insert_eq. eexists. split; [reflexivity|]. cbn. split.
        -- apply lookup_insert_eq.
        -- intros x Hi Hs. rewrite !lookup_insert_ne by congruence. reflexivity.
      * specialize (IH (<["i" := v]> g)).
        destruct (scan rest) as [o|e].
        -- destruct IH as (g' & Hrun & Hs & Hx). exists g'. split; [exact Hrun|]. split.
           ++ rewrite Hs. destruct o; [reflexivity|].
              apply lookup_insert_ne. discriminate.
           ++ intros x Hi Hsx. rewrite Hx by assumption.
              apply lookup_insert_ne. congruence.
        -- exact IH.
    + eexists. reflexivity.
Qed.

(** Lines 14 to 19, from a state in which [first_result] is bound. *)
Lemma isbn_stmts_run (first : value) (g : gmap string value) (out : string) :
  g !! "first_result" = Some first ->
  match isbn_of first with
  | Ok s =>
      exists g', isbn_stmts (World g out) = (Ok tt, World g' out)
        /\ g' !! "isbn_string" = Some s
        /\ (forall x, x <> "i" -> x <> "isbn_string" -> x <> "isbn_results" ->
              g' !! x = g !! x)
  | Raise e => exists g', isbn_stmts (World g out) = (Raise e, World g' out)
  end.
Proof.
  intros Hfirst. unfold isbn_of, isbn_stmts, for_in. run. lookups.
  rewrite Hfirst. simpl.
  destruct (Py.get first "isbn") as [r|e]; lookups; [|raised].
  destruct (Py.iter r) as [items|e]; lookups; [|raised].
  match goal with
  | |- context [for_each "i" items isbn_body (World ?G out)] =>
      pose proof (for_each_isbn items G out) as Hloop
  end.
  destruct (scan items) as [o|e]; simpl.
  - destruct Hloop as (g' & Hrun & Hs & Hx). exists g'. rewrite Hrun.
    split; [reflexivity|]. split.
    + rewrite Hs. lookups. destruct o; reflexivity.
    + intros x Hi Hsx Hr. rewrite Hx by assumption.
      rewrite !lookup_insert_ne by congruence. reflexivity.
  - destruct Hloop as (g' & Hrun). exists g'. rewrite Hrun. reflexivity.
Qed.

(** Lines 8 to 19, after [data] has been bound. *)
Lemma extraction_run (g : gmap string value) (out : string) (d : value) :
  match extract_pure d with
  | Ok (t, a, s) =>
      exists g', (store "data" d;; extraction) (World g out) = (Ok tt, World g' out)
        /\ g' !! "book_title" = Some t
        /\ g' !! "author_name" = Some a
        /\ g' !! "isbn_string" = Some s
  | Raise e =>
      exists g', (store "data" d;; extraction) (World g out) = (Raise e, World g' out)
  end.
Proof.
  unfold extract_pure, first_of, author_of, extraction.
  unfold first_result_stmt, book_title_stmt, author_name_stmt.
  run. lookups.
  destruct (Py.get d "docs") as [docs|e]; lookups; [|raised].
  destruct (Py.getitem0 docs) as [first|e]; lookups; [|raised].
  destruct (Py.get first "title") as [t|e]; lookups; [|raised].
  destruct (Py.get first "author_name") as [an|e]; lookups; [|raised].
  destruct (Py.getitem0 an) as [a|e]; lookups; [|raised].
  match goal with
  | |- context [isbn_stmts (World ?G out)] =>
      assert (Hfirst : G !! "first_result" = Some first) by (lookups; reflexivity);
      pose proof (isbn_stmts_run first G out Hfirst) as Hisbn; clear Hfirst
  end.
  destruct (isbn_of first) as [s|e].
  - destruct Hisbn as (g' & Hrun & Hs & Hx). exists g'. rewrite Hrun.
    split; [reflexivity|]. rewrite !Hx by discriminate. lookups. auto.
  - destruct Hisbn as (g' & Hrun). exists g'. rewrite Hrun. reflexivity.
Qed.

(** From every state, the extractor computes [extract_pure]. *)
Lemma extract_from_pure (w : world) (d : value) : extract_from w d = extract_pure d.
Proof.
  destruct w as [g out]. unfold extract_from.
  pose proof (extraction_run g out d) as H.
  change ((store "data" d;; extraction;; triple) (World g out))
    with (match (store "data" d;; extraction) (World g out) with
          | (Ok _, w') => triple w'
          | (Raise e, w') => (Raise e, w')
          end).
  destruct (extract_pure d) as [[[t a] s]|e].
  - destruct H as (g' & -> & Ht & Ha & Hs). unfold triple. run.
    rewrite Ht; simpl. rewrite Ha; simpl. rewrite Hs. reflexivity.
  - destruct H as (g' & ->). reflexivity.
Qed.

Lemma extractor_pure (d : value) : extractor d = extract_pure d.
Proof. apply extract_from_pure. Qed.

Section ScriptRuns.

Variable json : string -> result value.
Variable repr_float : spec_float -> string.
Variable repr_str : string -> string.

Lemma after_data {A} (rd : result value) (k : M A) (w : world) :
  (assign "data" (lift rd);; extraction;; k) w
  = match rd with
    | Ok d =>
        match (store "data" d;; extraction) w with
        | (Ok _, w') => k w'
        | (Raise e, w') => (Raise e, w')
        end
    | Raise e => (Raise e, w)
    end.
Proof. destruct rd; reflexivity. Qed.

Lemma decode_extract_run (g : gmap string value) (out : string) (b : string) :
  fst (decode_extract json (World g out) b) = pipeline json b
  /\ stdout (snd (decode_extract json (World g out) b)) = out.
Proof.
  unfold decode_extract, pipeline. rewrite after_data.
  destruct (json b) as [d|e]; [|split; reflexivity].
  pose proof (extraction_run g out d) as H. pure.
  destruct (extract_pure d) as [[[t a] s]|e].
  - destruct H as (g' & -> & Ht & Ha & Hs). unfold triple. run.
    rewrite Ht; simpl. rewrite Ha; simpl. rewrite Hs. split; reflexivity.
  - destruct H as (g' & ->). split; reflexivity.
Qed.

Lemma script_run (g : gmap string value) (out : string) (response : Response) :
  let r := script json repr_float repr_str (Ok response) (World g out) in
  match pipeline json (body response) with
  | Ok (t, a, s) =>
      fst r = Ok tt
      /\ stdout (snd r) = out ++ print_text repr_float repr_str [t; a; s] LF
  | Raise e => fst r = Raise e /\ stdout (snd r) = out
  end.
Proof.
  intros r. subst r. unfold pipeline.
  change (script json repr_float repr_str (Ok response) (World g out))
    with ((assign "data" (lift (json (body response)));; extraction;;
           print_stmt repr_float repr_str) (World g out)).
  rewrite after_data.
  destruct (json (body response)) as [d|e]; [|split; reflexivity].
  pose proof (extraction_run g out d) as H. pure.
  destruct (extract_pure d) as [[[t a] s]|e].
  - destruct H as (g' & -> & Ht & Ha & Hs). unfold print_stmt, triple. run.
    rewrite Ht; simpl. rewrite Ha; simpl. rewrite Hs. split; reflexivity.
  - destruct H as (g' & ->). split; reflexivity.
Qed.

End ScriptRuns.

(** A failure of the extractor is a failure of the script. *)
Lemma extractor_fatal (d : value) (e : exn) : extractor d = Raise e -> fatal d e.
Proof.
  intros Hex. split; [exact Hex|].
  intros json repr_float repr_str response [g out] Hjson.
  pose proof (script_run json repr_float repr_str g out response) as H.
  unfold pipeline in H. rewrite Hjson in H. pure in H.
  rewrite <- extractor_pure, Hex in H. exact H.
Qed.

(** The extractor, when the steps before the ISBN succeed. *)
Lemma extractor_isbn (d docs first t an a : value) :
  Py.get d "docs" = Ok docs -> Py.getitem0 docs = Ok first ->
  Py.get first "title" = Ok t ->
  Py.get first "author_name" = Ok an -> Py.getitem0 an = Ok a ->
  extractor d = (s ← isbn_of first; mret (t, a, s)).
Proof.
  intros Hdocs Hfirst Ht Han Ha.
  rewrite extractor_pure. unfold extract_pure, first_of, author_of.
  rewrite Hdocs; pure. rewrite Hfirst; pure. rewrite Ht; pure.
  rewrite Han; pure. rewrite Ha; pure. reflexivity.
Qed.

Lemma isbn_of_is (first s : value) : isbn_of first = Ok s -> isbn_is first s.
Proof.
  intros Hs. split.
  - intros g out Hg. pose proof (isbn_stmts_run first g out Hg) as H.
    rewrite Hs in H. destruct H as (g' & Hrun & Hg' & _). eauto.
  - intros d docs t an a Hdocs Hfirst Ht Han Ha.
    rewrite (extractor_isbn d docs first t an a) by assumption.
    rewrite Hs. reflexivity.
Qed.

Lemma isbn_of_raises (first : value) (e : exn) :
  isbn_of first = Raise e -> isbn_raises first e.
Proof.
  intros He. split.
  - intros g out Hg. pose proof (isbn_stmts_run first g out Hg) as H.
    rewrite He in H. exact H.
  - intros d docs t an a Hdocs Hfirst Ht Han Ha. apply extractor_fatal.
    rewrite (extractor_isbn d docs first t an a) by assumption.
    rewrite He. reflexivity.
Qed.

(** ** The scan over a sequence of strings *)

Lemma scan_skips (pre : list string) (rest : list value) :
  Forall not10 pre -> scan (map VStr pre ++ rest) = scan rest.
Proof.
  induction 1 as [|y pre Hy _ IH]; simpl; [reflexivity|].
  unfold mbind, result_bind; simpl.
  destruct (Nat.eqb_spec (String.length y) 10) as [E|_]; [contradiction|].
  exact IH.
Qed.

Lemma scan_hit (pre : list string) (x : string) (post : list value) :
  Forall not10 pre -> String.length x = 10 ->
  scan (map VStr pre ++ VStr x :: post) = Ok (Some (VStr x)).
Proof.
  intros Hpre Hx. rewrite scan_skips by assumption. simpl.
  unfold mbind, result_bind; simpl. rewrite Hx. reflexivity.
Qed.

Lemma scan_miss (ids : list string) :
  Forall not10 ids -> scan (map VStr ids) = Ok None.
Proof.
  intros H. rewrite <- (app_nil_r (map VStr ids)). rewrite scan_skips by assumption.
  reflexivity.
Qed.

(** Every sequence of strings has a first entry of length 10 or none. *)
Lemma first10_cases (ids : list string) :
  (exists pre x post,
      ids = (pre ++ x :: post)%list /\ Forall not10 pre /\ String.length x = 10)
  \/ Forall not10 ids.
Proof.
  induction ids as [|y ids IH].
  - right. constructor.
  - destruct (Nat.eq_dec (String.length y) 10) as [E|N].
    + left. exists [], y, ids. repeat split; [constructor | exact E].
    + destruct IH as [(pre & x & post & -> & Hpre & Hx)|Hall].
      * left. exists (y :: pre), x, post. repeat split; [|exact Hx].
        constructor; assumption.
      * right. constructor; assumption.
Qed.

Lemma isbn_of_list (first : value) (items : list value) :
  Py.get first "isbn" = Ok (VList items) ->
  isbn_of first = (o ← scan items; mret (default (VStr "") o)).
Proof. intros H. unfold isbn_of. rewrite H. reflexivity. Qed.

(** ** Texts *)

Lemma lines_app (x y : string) : lines (x ++ y) = lines x + lines y.
Proof.
  induction x as [|c x IH]; simpl; [reflexivity|]. rewrite IH. lia.
Qed.

Lemma append_assoc (x y z : string) : (x ++ y) ++ z = x ++ y ++ z.
Proof.
  induction x as [|c x IH]; [reflexivity|]. exact (f_equal (String c) IH).
Qed.

Lemma print_text_three (repr_float : spec_float -> string) (repr_str : string -> string)
    (t a s : value) :
  print_text repr_float repr_str [t; a; s] LF
  = str repr_float repr_str t ++ LF ++ str repr_float repr_str a ++ LF
    ++ str repr_float repr_str s ++ LF.
Proof.
  unfold print_text. cbn [String.concat map]. rewrite !append_assoc. reflexivity.
Qed.

Lemma print_stmt_run (repr_float : spec_float -> string) (repr_str : string -> string)
    (g : gmap string value) (out : string) (t a s : value) :
  g !! "book_title" = Some t -> g !! "author_name" = Some a ->
  g !! "isbn_string" = Some s ->
  print_stmt repr_float repr_str (World g out)
  = (Ok tt, World g (out ++ str repr_float repr_str t ++ LF
                         ++ str repr_float repr_str a ++ LF
                         ++ str repr_float repr_str s ++ LF)).
Proof.
  intros Ht Ha Hs. unfold print_stmt, triple. run.
  rewrite Ht; simpl. rewrite Ha; simpl. rewrite Hs.
  rewrite print_text_three. reflexivity.
Qed.

(** ** The ISBN *)

(** C1: whenever the [isbn] key of the first document is bound to a
    sequence of strings, the ISBN the extractor gives is the first of them
    whose length is exactly 10, or the empty string if none has length 10;
    and the scan stops at the first match: whatever follows it in the
    sequence, even an entry that has no length, is never looked at. *)
Theorem isbn_first_of_length_10 (first : value) (items : list value) :
  Py.get first "isbn" = Ok (VList items) ->
  (forall ids, items = map VStr ids ->
     exists s, isbn_is first (VStr s) /\
       ((exists pre post, ids = (pre ++ s :: post)%list
                          /\ Forall not10 pre /\ String.length s = 10)
        \/ (s = "" /\ Forall not10 ids)))
  /\ (forall pre x post, items = (map VStr pre ++ VStr x :: post)%list ->
        Forall not10 pre -> String.length x = 10 ->
        isbn_is first (VStr x)).
Proof.
  intros Hisbn. pose proof (isbn_of_list first items Hisbn) as Hof. split.
  - intros ids ->.
    destruct (first10_cases ids) as [(pre & x & post & -> & Hpre & Hx)|Hall].
    + exists x. split.
      * apply isbn_of_is. rewrite Hof, map_app. simpl.
        rewrite scan_hit by assumption. reflexivity.
      * left. exists pre, post. auto.
    + exists "". split.
      * apply isbn_of_is. rewrite Hof, scan_miss by assumption. reflexivity.
      * right. auto.
  - intros pre x post -> Hpre Hx.
    apply isbn_of_is. rewrite Hof, scan_hit by assumption. reflexivity.
Qed.

Lemma isbn_first_of_length_10_witness :
  extractor (search_body clans)
  = Ok (VStr "Clans of the Alphane Moon", VStr "Philip K. Dick", VStr "0575094194").
Proof.
  assert (H : isbn_is clans (VStr "0575094194")).
  { refine (proj2 (isbn_first_of_length_10 clans (map VStr isbns) eq_refl)
              ["9780575094195"] "0575094194" [VStr "1234567890123"] eq_refl _ eq_refl).
    repeat constructor. unfold not10. simpl. discriminate. }
  exact (proj2 H (search_body clans) (VList [clans])
           (VStr "Clans of the Alphane Moon") dick (VStr "Philip K. Dick")
           eq_refl eq_refl eq_refl eq_refl eq_refl).
Defined.

(** C2, as the code has it: when the [isbn] key of the first document is
    bound to an empty sequence, the ISBN step does not fail and the ISBN is
    the empty string; when the key is missing, the lookup gives [None] and
    the loop over it raises [TypeError]. *)
Theorem isbn_empty_or_missing (fields : list (string * value)) :
  (Py.dict_lookup "isbn" fields = Some (VList []) ->
     isbn_is (VDict fields) (VStr ""))
  /\ (Py.dict_lookup "isbn" fields = None ->
        isbn_raises (VDict fields) TypeError).
Proof.
  split; intros Hisbn.
  - apply isbn_of_is. unfold isbn_of. simpl. rewrite Hisbn. reflexivity.
  - apply isbn_of_raises. unfold isbn_of. simpl. rewrite Hisbn. reflexivity.
Qed.

Lemma isbn_empty_or_missing_witness :
  extractor (search_body (VDict clans_empty_isbn))
    = Ok (VStr "Clans of the Alphane Moon", VStr "Philip K. Dick", VStr "")
  /\ extractor (search_body (VDict clans_no_isbn)) = Raise TypeError.
Proof.
  split.
  - exact (proj2 (proj1 (isbn_empty_or_missing clans_empty_isbn) eq_refl)
             (search_body (VDict clans_empty_isbn)) (VList [VDict clans_empty_isbn])
             (VStr "Clans of the Alphane Moon") dick (VStr "Philip K. Dick")
             eq_refl eq_refl eq_refl eq_refl eq_refl).
  - exact (proj1 (proj2 (proj2 (isbn_empty_or_missing clans_no_isbn) eq_refl)
                    (search_body (VDict clans_no_isbn)) (VList [VDict clans_no_isbn])
                    (VStr "Clans of the Alphane Moon") dick (VStr "Philip K. Dick")
                    eq_refl eq_refl eq_refl eq_refl eq_refl)).
Defined.

(** C2 as it is written fails: a first document with a title and an author
    but no [isbn] key makes the extractor raise, it yields no ISBN. *)
Lemma isbn_missing_raises :
  Py.dict_lookup "isbn" clans_no_isbn = None
  /\ extractor (search_body (VDict clans_no_isbn)) = Raise TypeError
  /\ ~ (exists t a, extractor (search_body (VDict clans_no_isbn)) = Ok (t, a, VStr "")).
Proof.
  assert (H : extractor (search_body (VDict clans_no_isbn)) = Raise TypeError).
  { rewrite extractor_pure. reflexivity. }
  split; [reflexivity|]. split; [exact H|].
  intros (t & a & E). rewrite H in E. discriminate.
Qed.

(** ** The first document *)

(** C3, as the code has it: a decoded mapping without a [docs] key makes
    the extractor raise [TypeError] (the lookup gives [None], which cannot
    be subscripted), a mapping whose [docs] is an empty sequence makes it
    raise [IndexError]; in both cases the script stops there and no value
    is returned or printed, and the decoded body [{}] is an instance of the
    first. *)
Theorem docs_missing_or_empty_raises (top : list (string * value)) :
  (Py.dict_lookup "docs" top = None -> fatal (VDict top) TypeError)
  /\ (Py.dict_lookup "docs" top = Some (VList []) -> fatal (VDict top) IndexError)
  /\ fatal (VDict []) TypeError.
Proof.
  split; [|split]; try intros Hdocs; apply extractor_fatal; rewrite extractor_pure;
    unfold extract_pure, first_of; simpl; try rewrite Hdocs; reflexivity.
Qed.

Lemma docs_missing_or_empty_raises_witness :
  extractor (VDict [("numFound", VInt 0)]) = Raise TypeError
  /\ extractor (VDict [("numFound", VInt 0); ("docs", VList [])]) = Raise IndexError.
Proof.
  split.
  - exact (proj1 (proj1 (docs_missing_or_empty_raises [("numFound", VInt 0)]) eq_refl)).
  - exact (proj1 (proj1 (proj2 (docs_missing_or_empty_raises
                                  [("numFound", VInt 0); ("docs", VList [])]))
                        eq_refl)).
Defined.

(** C3 as it is written fails: on the decoded body [{}] the exception is
    neither an index error nor a key error. *)
Lemma docs_missing_is_not_index_or_key_error :
  Py.dict_lookup "docs" [] = None
  /\ extractor (VDict []) <> Raise IndexError
  /\ extractor (VDict []) <> Raise KeyError.
Proof.
  assert (H : extractor (VDict []) = Raise TypeError).
  { rewrite extractor_pure. reflexivity. }
  rewrite H. repeat split; discriminate.
Qed.

(** ** The author *)

(** C4: a first document without an [author_name] key, and one whose
    [author_name] is an empty sequence, make the extractor raise; the
    script stops there, no author is returned or printed. *)
Theorem author_name_missing_or_empty_raises
    (d docs : value) (fields : list (string * value)) :
  Py.get d "docs" = Ok docs -> Py.getitem0 docs = Ok (VDict fields) ->
  (Py.dict_lookup "author_name" fields = None -> fatal d TypeError)
  /\ (Py.dict_lookup "author_name" fields = Some (VList []) -> fatal d IndexError).
Proof.
  intros Hdocs Hfirst.
  split; intros Han; apply extractor_fatal; rewrite extractor_pure;
    unfold extract_pure, first_of, author_of;
    rewrite Hdocs; pure; rewrite Hfirst; pure; simpl; rewrite Han; reflexivity.
Qed.

Lemma author_name_missing_or_empty_raises_witness :
  extractor (search_body (VDict [("title", VStr "Ubik")])) = Raise TypeError
  /\ extractor (search_body (VDict [("title", VStr "Ubik"); ("author_name", VList [])]))
     = Raise IndexError.
Proof.
  split.
  - exact (proj1 (proj1 (author_name_missing_or_empty_raises
                           (search_body (VDict [("title", VStr "Ubik")]))
                           (VList [VDict [("title", VStr "Ubik")]])
                           [("title", VStr "Ubik")] eq_refl eq_refl) eq_refl)).
  - exact (proj1 (proj2 (author_name_missing_or_empty_raises
                           (search_body (VDict [("title", VStr "Ubik"); ("author_name", VList [])]))
                           (VList [VDict [("title", VStr "Ubik"); ("author_name", VList [])]])
                           [("title", VStr "Ubik"); ("author_name", VList [])]
                           eq_refl eq_refl) eq_refl)).
Defined.

(** C5: when [author_name] of the first document is a non-empty sequence,
    the statement of line 12 binds [author_name] to its first element,
    whatever follows it; the extractor returns that element as the author
    whenever the ISBN step that comes after it succeeds, and never returns
    another author. *)
Theorem author_is_first_element
    (d docs first a : value) (others : list value) :
  Py.get d "docs" = Ok docs -> Py.getitem0 docs = Ok first ->
  Py.get first "author_name" = Ok (VList (a :: others)) ->
  (forall g out, g !! "first_result" = Some first ->
     author_name_stmt (World g out) = (Ok tt, World (<["author_name" := a]> g) out))
  /\ (forall s, isbn_of first = Ok s -> exists t, extractor d = Ok (t, a, s))
  /\ (forall r, extractor d = Ok r -> snd (fst r) = a).
Proof.
  intros Hdocs Hfirst Han.
  assert (Ht : exists t, Py.get first "title" = Ok t).
  { destruct first; try discriminate. eexists. reflexivity. }
  destruct Ht as [t Ht].
  pose proof (extractor_isbn d docs first t (VList (a :: others)) a
                Hdocs Hfirst Ht Han eq_refl) as Hex.
  split; [|split].
  - intros g out Hg. unfold author_name_stmt. run. rewrite Hg. simpl.
    rewrite Han. reflexivity.
  - intros s Hs. exists t. rewrite Hex, Hs. reflexivity.
  - intros r Hr. rewrite Hex in Hr. destruct (isbn_of first); pure in Hr.
    + injection Hr as <-. reflexivity.
    + discriminate.
Qed.

Lemma author_is_first_element_witness :
  exists t, extractor (search_body clans)
            = Ok (t, VStr "Philip K. Dick", VStr "0575094194").
Proof.
  exact (proj1 (proj2 (author_is_first_element (search_body clans) (VList [clans]) clans
                         (VStr "Philip K. Dick") [VStr "Someone Else"]
                         eq_refl eq_refl eq_refl))
               (VStr "0575094194") eq_refl).
Defined.

(** ** The title *)

(** C6: when the first document has no [title] key, the statement of line
    10 does not raise, it binds [book_title] to [None]; the extraction goes
    on, and what the extractor gives is decided by the author and ISBN
    steps alone. *)
Theorem title_absent_is_tolerated
    (d docs : value) (fields : list (string * value)) :
  Py.get d "docs" = Ok docs -> Py.getitem0 docs = Ok (VDict fields) ->
  Py.dict_lookup "title" fields = None ->
  (forall g out, g !! "first_result" = Some (VDict fields) ->
     book_title_stmt (World g out) = (Ok tt, World (<["book_title" := VNone]> g) out))
  /\ extractor d
     = (a ← author_of (VDict fields); s ← isbn_of (VDict fields); mret (VNone, a, s)).
Proof.
  intros Hdocs Hfirst Htitle. split.
  - intros g out Hg. unfold book_title_stmt. run. rewrite Hg. simpl.
    rewrite Htitle. reflexivity.
  - rewrite extractor_pure. unfold extract_pure, first_of.
    rewrite Hdocs; pure. rewrite Hfirst; pure.
    unfold Py.get at 1. rewrite Htitle. reflexivity.
Qed.

Lemma title_absent_is_tolerated_witness :
  extractor (search_body (VDict untitled))
  = Ok (VNone, VStr "Philip K. Dick", VStr "0575094194").
Proof.
  exact (proj2 (title_absent_is_tolerated (search_body (VDict untitled))
                  (VList [VDict untitled]) untitled eq_refl eq_refl eq_refl)).
Defined.

(** ** The output *)

(** C7, as the code has it: for every triple the extraction leaves,
    [print] writes the rendering of the title, a line feed, the rendering
    of the author, a line feed, the rendering of the ISBN and a line feed,
    and nothing else; these are exactly three lines whenever none of the
    three renderings contains a line feed, as for "Clans of the Alphane
    Moon", "Philip K. Dick" and "0441116802". *)
Theorem print_writes_three_lines
    (repr_float : spec_float -> string) (repr_str : string -> string)
    (g : gmap string value) (out : string) (t a s : value) :
  g !! "book_title" = Some t -> g !! "author_name" = Some a ->
  g !! "isbn_string" = Some s ->
  let text := str repr_float repr_str t ++ LF ++ str repr_float repr_str a ++ LF
              ++ str repr_float repr_str s ++ LF in
  print_stmt repr_float repr_str (World g out) = (Ok tt, World g (out ++ text))
  /\ (lines (str repr_float repr_str t) = 0 ->
      lines (str repr_float repr_str a) = 0 ->
      lines (str repr_float repr_str s) = 0 -> lines text = 3).
Proof.
  intros Ht Ha Hs text. split.
  - apply print_stmt_run; assumption.
  - intros Lt La Ls. subst text. rewrite !lines_app, Lt, La, Ls. reflexivity.
Qed.

Lemma print_writes_three_lines_witness :
  print_stmt (fun _ => "") (fun x => x) (World clans_globals "")
  = (Ok tt, World clans_globals
              ("Clans of the Alphane Moon" ++ LF ++ "Philip K. Dick" ++ LF
               ++ "0441116802" ++ LF))
  /\ lines ("Clans of the Alphane Moon" ++ LF ++ "Philip K. Dick" ++ LF
            ++ "0441116802" ++ LF) = 3.
Proof.
  pose proof (print_writes_three_lines (fun _ => "") (fun x => x) clans_globals ""
                (VStr "Clans of the Alphane Moon") (VStr "Philip K. Dick")
                (VStr "0441116802") eq_refl eq_refl eq_refl) as [Hrun Hlines].
  split; [exact Hrun|]. apply Hlines; reflexivity.
Defined.

(** C7 as it is written fails: a title that contains a line feed is written
    as it is, and the output of the script has four lines. *)
Lemma title_with_line_feed_prints_four_lines :
  extractor (search_body two_line_title)
  = Ok (VStr ("Clans of the" ++ LF ++ "Alphane Moon"), VStr "Philip K. Dick",
        VStr "0441116802")
  /\ lines (stdout (snd (script json_two_lines (fun _ => "") (fun x => x)
                           (Ok ok_response) fresh))) = 4.
Proof.
  split.
  - rewrite extractor_pure. reflexivity.
  - pose proof (script_run json_two_lines (fun _ => "") (fun x => x) ∅ ""
                  ok_response) as H.
    simpl in H. destruct H as [_ H]. unfold fresh. rewrite H. reflexivity.
Qed.

(** ** No hidden state *)

(** C8: decoding a body and extracting from it gives the same triple, or
    the same exception, from whatever state it starts: from two arbitrary
    states, and in particular when it is run a second time from the state
    the first run left. *)
Theorem decode_extract_deterministic
    (json : string -> result value) (b : string) (w1 w2 : world) :
  fst (decode_extract json w1 b) = fst (decode_extract json w2 b)
  /\ fst (decode_extract json (snd (decode_extract json w1 b)) b)
     = fst (decode_extract json w1 b).
Proof.
  destruct w1 as [g1 out1], w2 as [g2 out2].
  destruct (snd (decode_extract json (World g1 out1) b)) as [g' out'].
  rewrite (proj1 (decode_extract_run json g1 out1 b)).
  rewrite (proj1 (decode_extract_run json g2 out2 b)).
  rewrite (proj1 (decode_extract_run json g' out' b)).
  split; reflexivity.
Qed.

(** ** The status code *)

(** C9: two responses with the same body make the script behave the same,
    whatever their status codes: the same outcome, the same globals and the
    same output. *)
Theorem status_code_is_ignored
    (json : string -> result value)
    (repr_float : spec_float -> string) (repr_str : string -> string)
    (r1 r2 : Response) (w : world) :
  body r1 = body r2 ->
  script json repr_float repr_str (Ok r1) w
  = script json repr_float repr_str (Ok r2) w.
Proof.
  intros Hbody.
  change (script json repr_float repr_str (Ok r1) w)
    with ((assign "data" (lift (json (body r1)));; extraction;;
           print_stmt repr_float repr_str) w).
  rewrite Hbody. reflexivity.
Qed.

Lemma status_code_is_ignored_witness :
  script json_clans (fun _ => "") (fun x => x) (Ok ok_response) fresh
  = script json_clans (fun _ => "") (fun x => x) (Ok not_found_response) fresh.
Proof.
  exact (status_code_is_ignored json_clans (fun _ => "") (fun x => x)
           ok_response not_found_response fresh eq_refl).
Defined.

(** ** An absent title in the output *)

(** C10, as the code has it: when the first document has no [title] key,
    the author is extracted and the ISBN step succeeds, the script writes
    [None], a line feed, the author, a line feed, the ISBN and a line feed:
    the first line written is the four characters [None], not an empty
    line.  When the ISBN step raises, the script raises with it and writes
    nothing. *)
Theorem absent_title_prints_None
    (json : string -> result value)
    (repr_float : spec_float -> string) (repr_str : string -> string)
    (response : Response) (d docs a : value) (fields : list (string * value))
    (g : gmap string value) (out : string) :
  json (body response) = Ok d ->
  Py.get d "docs" = Ok docs -> Py.getitem0 docs = Ok (VDict fields) ->
  Py.dict_lookup "title" fields = None ->
  author_of (VDict fields) = Ok a ->
  let r := script json repr_float repr_str (Ok response) (World g out) in
  (forall s, isbn_of (VDict fields) = Ok s ->
     let written := "None" ++ LF ++ str repr_float repr_str a ++ LF
                    ++ str repr_float repr_str s ++ LF in
     fst r = Ok tt
     /\ stdout (snd r) = out ++ written
     /\ first_line written = Some "None"
     /\ String.length "None" = 4
     /\ lines written
        = 3 + lines (str repr_float repr_str a) + lines (str repr_float repr_str s))
  /\ (forall e, isbn_of (VDict fields) = Raise e ->
        fst r = Raise e /\ stdout (snd r) = out).
Proof.
  intros Hjson Hdocs Hfirst Htitle Ha r. subst r.
  pose proof (script_run json repr_float repr_str g out response) as H.
  unfold pipeline in H. rewrite Hjson in H. pure in H.
  unfold extract_pure, first_of in H.
  rewrite Hdocs in H; pure in H. rewrite Hfirst in H; pure in H.
  unfold Py.get at 1 in H. rewrite Htitle in H. pure in H.
  rewrite Ha in H; pure in H.
  split.
  - intros s Hs written. rewrite Hs in H. pure in H. destruct H as [H1 H2].
    split; [exact H1|]. split.
    { rewrite H2, print_text_three. reflexivity. }
    split; [reflexivity|]. split; [reflexivity|].
    subst written. rewrite !lines_app. simpl. lia.
  - intros e He. rewrite He in H. exact H.
Qed.

Lemma absent_title_prints_None_witness :
  stdout (snd (script json_untitled (fun _ => "") (fun x => x) (Ok ok_response) fresh))
    = "None" ++ LF ++ "Philip K. Dick" ++ LF ++ "0575094194" ++ LF
  /\ first_line ("None" ++ LF ++ "Philip K. Dick" ++ LF ++ "0575094194" ++ LF)
     = Some "None".
Proof.
  pose proof (proj1 (absent_title_prints_None json_untitled (fun _ => "") (fun x => x)
                       ok_response (search_body (VDict untitled))
                       (VList [VDict untitled]) (VStr "Philip K. Dick") untitled ∅ ""
                       eq_refl eq_refl eq_refl eq_refl eq_refl)
                    (VStr "0575094194") eq_refl) as (_ & Hout & Hline & _).
  split; [exact Hout | exact Hline].
Defined.

(** C10 as it is written fails: a first document with an author and
    neither a title nor an ISBN is inside its condition, and on it the
    script raises [TypeError] at the loop and writes no line at all. *)
Lemma absent_title_without_isbn_prints_nothing :
  Py.dict_lookup "title" untitled_no_isbn = None
  /\ author_of (VDict untitled_no_isbn) = Ok (VStr "Philip K. Dick")
  /\ fst (script json_untitled_no_isbn (fun _ => "") (fun x => x)
            (Ok ok_response) fresh) = Raise TypeError
  /\ stdout (snd (script json_untitled_no_isbn (fun _ => "") (fun x => x)
                    (Ok ok_response) fresh)) = ""
  /\ first_line (stdout (snd (script json_untitled_no_isbn (fun _ => "") (fun x => x)
                                (Ok ok_response) fresh))) <> Some "None".
Proof.
  pose proof (script_run json_untitled_no_isbn (fun _ => "") (fun x => x) ∅ ""
                ok_response) as H.
  simpl in H. destruct H as [H1 H2]. unfold fresh.
  split; [reflexivity|]. split; [reflexivity|]. split; [exact H1|].
  split; [exact H2|]. rewrite H2. discriminate.
Qed.

(** * Further properties of the script *)

(** ** What the script prints, and when *)

Lemma script_fetch_failed (json : string -> result value)
    (repr_float : spec_float -> string) (repr_str : string -> string)
    (e : exn) (w : world) :
  script json repr_float repr_str (Raise e) w = (Raise e, w).
Proof. reflexivity. Qed.

(** X1: a run of the script prints all or nothing.  Whatever
    [requests.get] did and whatever the decoder gives, either the script
    finishes and has appended to standard output exactly the three lines of
    one triple, or it raises and standard output is as it was. *)
Theorem script_prints_all_or_nothing
    (json : string -> result value)
    (repr_float : spec_float -> string) (repr_str : string -> string)
    (fetched : result Response) (w : world) :
  (exists t a s,
      fst (script json repr_float repr_str fetched w) = Ok tt
      /\ stdout (snd (script json repr_float repr_str fetched w))
         = stdout w ++ three_lines repr_float repr_str t a s)
  \/ (exists e,
        fst (script json repr_float repr_str fetched w) = Raise e
        /\ stdout (snd (script json repr_float repr_str fetched w)) = stdout w).
Proof.
  destruct w as [g out]. destruct fetched as [response|e].
  - pose proof (script_run json repr_float repr_str g out response) as H.
    cbv zeta in H.
    destruct (pipeline json (body response)) as [[[t a] s]|e].
    + left. exists t, a, s. destruct H as [H1 H2]. split; [exact H1|].
      rewrite H2, print_text_three. reflexivity.
    + right. exists e. exact H.
  - right. exists e. rewrite script_fetch_failed. split; reflexivity.
Qed.

(** X2: when the decoder raises on the body, the script raises the same
    exception at line 7 and goes no further: nothing is printed, and none
    of the names that lines 7 to 21 assign is bound or rebound, each keeps
    what it had before the run. *)
Theorem decode_failure_binds_nothing
    (json : string -> result value)
    (repr_float : spec_float -> string) (repr_str : string -> string)
    (response : Response) (e : exn) (w : world) :
  json (body response) = Raise e ->
  fst (script json repr_float repr_str (Ok response) w) = Raise e
  /\ stdout (snd (script json repr_float repr_str (Ok response) w)) = stdout w
  /\ (forall x, In x script_names ->
        globals (snd (script json repr_float repr_str (Ok response) w)) !! x
        = globals w !! x).
Proof.
  intros Hjson.
  change (script json repr_float repr_str (Ok response) w)
    with ((assign "data" (lift (json (body response)));; extraction;;
           print_stmt repr_float repr_str) w).
  rewrite after_data, Hjson. repeat split; reflexivity.
Qed.

Lemma decode_failure_binds_nothing_witness :
  fst (script json_clans (fun _ => "") (fun x => x) (Ok garbled_response) fresh)
    = Raise JSONDecodeError
  /\ stdout (snd (script json_clans (fun _ => "") (fun x => x)
                    (Ok garbled_response) fresh)) = ""
  /\ globals (snd (script json_clans (fun _ => "") (fun x => x)
                     (Ok garbled_response) fresh)) !! "data" = None.
Proof.
  pose proof (decode_failure_binds_nothing json_clans (fun _ => "") (fun x => x)
                garbled_response JSONDecodeError fresh eq_refl) as (H1 & H2 & H3).
  split; [exact H1|]. split; [exact H2|].
  rewrite (H3 "data" (or_introl eq_refl)). reflexivity.
Defined.

Lemma clans_extracted :
  extractor (search_body clans)
  = Ok (VStr "Clans of the Alphane Moon", VStr "Philip K. Dick", VStr "0575094194").
Proof. rewrite extractor_pure. reflexivity. Qed.

(** X3: the script prints what the extractor returns.  When the decoder
    gives [d] and the extractor returns the triple [(t, a, s)] on [d], the
    script finishes, appends the three lines of that triple to standard
    output and nothing else, and the number of lines it has added is three
    plus the line feeds inside the three renderings. *)
Theorem script_prints_the_extracted_triple
    (json : string -> result value)
    (repr_float : spec_float -> string) (repr_str : string -> string)
    (response : Response) (d t a s : value) (w : world) :
  json (body response) = Ok d ->
  extractor d = Ok (t, a, s) ->
  fst (script json repr_float repr_str (Ok response) w) = Ok tt
  /\ stdout (snd (script json repr_float repr_str (Ok response) w))
     = stdout w ++ three_lines repr_float repr_str t a s
  /\ lines (stdout (snd (script json repr_float repr_str (Ok response) w)))
     = lines (stdout w) + 3 + lines (str repr_float repr_str t)
       + lines (str repr_float repr_str a) + lines (str repr_float repr_str s).
Proof.
  intros Hjson Hex. destruct w as [g out].
  pose proof (script_run json repr_float repr_str g out response) as H.
  cbv zeta in H. unfold pipeline in H. rewrite Hjson in H. pure in H.
  rewrite <- extractor_pure, Hex in H. destruct H as [H1 H2].
  split; [exact H1|]. rewrite H2, print_text_three. split; [reflexivity|].
  unfold three_lines. rewrite !lines_app. simpl. lia.
Qed.

Lemma script_prints_the_extracted_triple_witness :
  stdout (snd (script json_clans (fun _ => "") (fun x => x) (Ok ok_response) fresh))
  = "Clans of the Alphane Moon" ++ LF ++ "Philip K. Dick" ++ LF ++ "0575094194" ++ LF.
Proof.
  exact (proj1 (proj2 (script_prints_the_extracted_triple json_clans (fun _ => "")
                         (fun x => x) ok_response (search_body clans)
                         (VStr "Clans of the Alphane Moon") (VStr "Philip K. Dick")
                         (VStr "0575094194") fresh eq_refl
                         clans_extracted))).
Defined.

(** ** What the extractor looks at *)

(** X4: only the first document counts.  The documents after the first,
    and every other key of the decoded body, have no effect on what the
    extractor gives: it is what it gives on a body holding the first
    document alone. *)
Theorem later_documents_are_ignored (d first : value) (rest : list value) :
  Py.get d "docs" = Ok (VList (first :: rest)) ->
  extractor d = extractor (VDict [("docs", VList [first])]).
Proof.
  intros Hdocs. rewrite !extractor_pure. unfold extract_pure, first_of.
  rewrite Hdocs. reflexivity.
Qed.

Lemma later_documents_are_ignored_witness :
  extractor (VDict [("numFound", VInt 2); ("docs", VList [clans; VDict ubik])])
  = extractor (VDict [("docs", VList [clans])]).
Proof.
  exact (later_documents_are_ignored
           (VDict [("numFound", VInt 2); ("docs", VList [clans; VDict ubik])])
           clans [VDict ubik] eq_refl).
Defined.

(** X5: of the first document only the keys [title], [author_name] and
    [isbn] count.  Two bodies whose first documents are mappings that agree
    on these three keys give the same triple or the same exception,
    whatever else the documents and the bodies hold. *)
Theorem only_three_keys_matter
    (d1 d2 docs1 docs2 : value) (fields1 fields2 : list (string * value)) :
  Py.get d1 "docs" = Ok docs1 -> Py.getitem0 docs1 = Ok (VDict fields1) ->
  Py.get d2 "docs" = Ok docs2 -> Py.getitem0 docs2 = Ok (VDict fields2) ->
  Py.dict_lookup "title" fields1 = Py.dict_lookup "title" fields2 ->
  Py.dict_lookup "author_name" fields1 = Py.dict_lookup "author_name" fields2 ->
  Py.dict_lookup "isbn" fields1 = Py.dict_lookup "isbn" fields2 ->
  extractor d1 = extractor d2.
Proof.
  intros H1 F1 H2 F2 Ht Ha Hi. rewrite !extractor_pure.
  unfold extract_pure, first_of, author_of, isbn_of.
  rewrite H1, H2; pure. rewrite F1, F2; pure.
  unfold Py.get. rewrite Ht, Ha, Hi. reflexivity.
Qed.

Lemma only_three_keys_matter_witness :
  extractor (search_body (VDict valis))
  = extractor (VDict [("docs", VList [VDict valis_bare])]).
Proof.
  exact (only_three_keys_matter (search_body (VDict valis))
           (VDict [("docs", VList [VDict valis_bare])])
           (VList [VDict valis]) (VList [VDict valis_bare]) valis valis_bare
           eq_refl eq_refl eq_refl eq_refl eq_refl eq_refl eq_refl).
Defined.

(** ** The globals the script touches *)

Lemma preserves_bind {A B} (names : list string) (m : M A) (k : A -> M B) :
  preserves names m -> (forall a, preserves names (k a)) ->
  preserves names (m ≫= k).
Proof.
  intros Hm Hk w x Hx. specialize (Hm w x Hx).
  unfold mbind, M_bind. destruct (m w) as [[a|e] w']; simpl in *.
  - rewrite Hk by assumption. exact Hm.
  - exact Hm.
Qed.

Lemma preserves_pure {A} (names : list string) (f : world -> result A) :
  preserves names (fun w => (f w, w)).
Proof. intros w x _. reflexivity. Qed.

Lemma preserves_store (names : list string) (x : string) (v : value) :
  In x names -> preserves names (store x v).
Proof.
  intros Hin w y Hy. simpl. apply lookup_insert_ne. intros ->. contradiction.
Qed.

Lemma preserves_write (names : list string) (s : string) :
  preserves names (write s).
Proof. intros w x _. reflexivity. Qed.

Lemma preserves_var (names : list string) (x : string) : preserves names (var x).
Proof. intros w y _. unfold var. destruct (globals w !! x); reflexivity. Qed.

Lemma preserves_lift {A} (names : list string) (r : result A) :
  preserves names (lift r).
Proof. intros w x _. reflexivity. Qed.

Lemma preserves_assign (names : list string) (x : string) (e : M value) :
  In x names -> preserves names e -> preserves names (assign x e).
Proof.
  intros Hin He. apply preserves_bind; [exact He|].
  intros v. apply preserves_store. exact Hin.
Qed.

Lemma preserves_get (names : list string) (e : M value) (k : string) :
  preserves names e -> preserves names (get e k).
Proof.
  intros He. apply preserves_bind; [exact He|]. intros o. apply preserves_lift.
Qed.

Lemma preserves_item0 (names : list string) (e : M value) :
  preserves names e -> preserves names (item0 e).
Proof.
  intros He. apply preserves_bind; [exact He|]. intros o. apply preserves_lift.
Qed.

Lemma preserves_for_each (names : list string) (x : string) (items : list value)
    (body : M flow) :
  In x names -> preserves names body -> preserves names (for_each x items body).
Proof.
  intros Hin Hbody. induction items as [|v rest IH]; simpl.
  - apply (preserves_pure names (fun _ => Ok tt)).
  - apply preserves_bind; [apply preserves_store; exact Hin|]. intros _.
    apply preserves_bind; [exact Hbody|]. intros [|]; [exact IH|].
    apply (preserves_pure names (fun _ => Ok tt)).
Qed.

Lemma preserves_isbn_body : preserves script_names isbn_body.
Proof.
  unfold isbn_body. apply preserves_bind.
  - apply preserves_bind; [apply preserves_var|]. intros o. apply preserves_lift.
  - intros n. destruct (Nat.eqb n 10).
    + apply preserves_bind.
      * apply preserves_assign; [simpl; tauto | apply preserves_var].
      * intros _. apply (preserves_pure script_names (fun _ => Ok Break)).
    + apply (preserves_pure script_names (fun _ => Ok Next)).
Qed.

Lemma preserves_field (x k : string) :
  In x script_names -> preserves script_names (assign x (get (var "first_result") k)).
Proof.
  intros Hin. apply preserves_assign; [exact Hin|].
  apply preserves_get, preserves_var.
Qed.

Lemma preserves_isbn_stmts : preserves script_names isbn_stmts.
Proof.
  unfold isbn_stmts, for_in.
  apply preserves_bind; [|intros _; apply preserves_bind; [|intros _]].
  - apply preserves_assign; [simpl; tauto|].
    apply (preserves_pure script_names (fun _ => Ok (VStr ""))).
  - apply preserves_field. simpl; tauto.
  - apply preserves_bind; [apply preserves_var|]. intros o.
    apply preserves_bind; [apply preserves_lift|]. intros items.
    apply preserves_for_each; [simpl; tauto | apply preserves_isbn_body].
Qed.

Lemma preserves_extraction : preserves script_names extraction.
Proof.
  unfold extraction, first_result_stmt, book_title_stmt, author_name_stmt.
  apply preserves_bind; [|intros _; apply preserves_bind;
                           [|intros _; apply preserves_bind; [|intros _]]].
  - apply preserves_assign; [simpl; tauto|].
    apply preserves_item0, preserves_get, preserves_var.
  - apply preserves_field. simpl; tauto.
  - apply preserves_assign; [simpl; tauto|].
    apply preserves_item0, preserves_get, preserves_var.
  - apply preserves_isbn_stmts.
Qed.

(** X6: the script binds the names [data], [first_result], [book_title],
    [author_name], [isbn_string], [isbn_results] and [i], and no other:
    every other global is after the run what it was before, whether the
    script finishes or raises. *)
Theorem script_touches_only_its_names
    (json : string -> result value)
    (repr_float : spec_float -> string) (repr_str : string -> string)
    (fetched : result Response) (w : world) (x : string) :
  ~ In x script_names ->
  globals (snd (script json repr_float repr_str fetched w)) !! x = globals w !! x.
Proof.
  revert w x. change (preserves script_names (script json repr_float repr_str fetched)).
  unfold script, data_stmt, print_stmt, triple.
  apply preserves_bind; [apply preserves_lift|]. intros response.
  apply preserves_bind.
  { apply preserves_assign; [simpl; tauto | apply preserves_lift]. }
  intros _. apply preserves_bind; [apply preserves_extraction|]. intros _.
  apply preserves_bind.
  - repeat (apply preserves_bind; [apply preserves_var|]; intros ?).
    apply (preserves_pure script_names (fun _ => Ok (a, a0, a1))).
  - intros [[t a] s]. apply preserves_write.
Qed.

Lemma script_touches_only_its_names_witness :
  globals (snd (script json_clans (fun _ => "") (fun x => x) (Ok ok_response) with_url))
    !! "url"
  = Some (VStr "https://openlibrary.org/search.json?q=clans+of+the+alphane+moon").
Proof.
  rewrite (script_touches_only_its_names json_clans (fun _ => "") (fun x => x)
             (Ok ok_response) with_url "url").
  - reflexivity.
  - simpl. intros H. repeat (destruct H as [H|H]; [discriminate H|]). exact H.
Defined.

(** ** More on the ISBN scan *)

Lemma scan_found (items : list value) (v : value) :
  scan items = Ok (Some v) -> Py.len v = Ok 10 /\ In v items.
Proof.
  induction items as [|x rest IH]; simpl; [discriminate|].
  unfold mbind, result_bind. destruct (Py.len x) as [n|e] eqn:Hlen; [|discriminate].
  destruct (Nat.eqb_spec n 10) as [->|_].
  - intros [= <-]. split; [exact Hlen | left; reflexivity].
  - intros H. destruct (IH H) as [Hv Hin]. split; [exact Hv | right; exact Hin].
Qed.

Lemma scan_skips_sized (pre rest : list value) :
  Forall sized_not10 pre -> scan (pre ++ rest) = scan rest.
Proof.
  induction 1 as [|y pre (n & Hn & Hne) _ IH]; simpl; [reflexivity|].
  unfold mbind, result_bind. rewrite Hn.
  destruct (Nat.eqb_spec n 10) as [E|_]; [contradiction|]. exact IH.
Qed.

Lemma scan_chars (s : string) : scan (Py.chars s) = Ok None.
Proof. induction s as [|c s IH]; simpl; [reflexivity | exact IH]. Qed.

(** X7: the ISBN the extractor returns is the empty string or a value of
    length 10, and in the second case it is one of the items the loop went
    over. *)
Theorem extracted_isbn_is_empty_or_of_length_10 (d t a s : value) :
  extractor d = Ok (t, a, s) ->
  s = VStr ""
  \/ (Py.len s = Ok 10
      /\ exists docs first r items,
           Py.get d "docs" = Ok docs /\ Py.getitem0 docs = Ok first
           /\ Py.get first "isbn" = Ok r /\ Py.iter r = Ok items /\ In s items).
Proof.
  rewrite extractor_pure. unfold extract_pure, first_of, author_of, isbn_of.
  destruct (Py.get d "docs") as [docs|e] eqn:Hdocs; pure; [|discriminate].
  destruct (Py.getitem0 docs) as [first|e] eqn:Hfirst; pure; [|discriminate].
  destruct (Py.get first "title") as [t'|e]; pure; [|discriminate].
  destruct (Py.get first "author_name") as [an|e]; pure; [|discriminate].
  destruct (Py.getitem0 an) as [a'|e]; pure; [|discriminate].
  destruct (Py.get first "isbn") as [r|e] eqn:Hr; pure; [|discriminate].
  destruct (Py.iter r) as [items|e] eqn:Hitems; pure; [|discriminate].
  destruct (scan items) as [[v|]|e] eqn:Hscan; pure; [| |discriminate].
  - intros [= _ _ <-]. right. destruct (scan_found items v Hscan) as [Hlen Hin].
    split; [exact Hlen|]. exists docs, first, r, items. auto.
  - intros [= _ _ <-]. left. reflexivity.
Qed.

Lemma extracted_isbn_is_empty_or_of_length_10_witness :
  VStr "0575094194" = VStr "" \/ Py.len (VStr "0575094194") = Ok 10.
Proof.
  destruct (extracted_isbn_is_empty_or_of_length_10 (search_body clans)
              (VStr "Clans of the Alphane Moon") (VStr "Philip K. Dick")
              (VStr "0575094194") clans_extracted) as [H|[H _]].
  - left. exact H.
  - right. exact H.
Defined.

(** X8: when the [isbn] key of the first document is bound to a string and
    not to a sequence, the loop goes over its characters, none of which has
    length 10: the ISBN is the empty string, even for a string of ten
    characters. *)
Theorem isbn_given_as_a_string_is_lost (first : value) (s : string) :
  Py.get first "isbn" = Ok (VStr s) -> isbn_is first (VStr "").
Proof.
  intros Hisbn. apply isbn_of_is. unfold isbn_of. rewrite Hisbn; pure. simpl.
  pure. rewrite scan_chars. reflexivity.
Qed.

Lemma isbn_given_as_a_string_is_lost_witness :
  extractor (search_body (VDict ubik)) = Ok (VStr "Ubik", VStr "P", VStr "").
Proof.
  exact (proj2 (isbn_given_as_a_string_is_lost (VDict ubik) "0679736646" eq_refl)
           (search_body (VDict ubik)) (VList [VDict ubik])
           (VStr "Ubik") (VStr "Philip K. Dick") (VStr "P")
           eq_refl eq_refl eq_refl eq_refl eq_refl).
Defined.

(** X9: the loop tests the length of an entry and nothing else.  The first
    entry of length 10 is selected whatever it is, a string of ten
    characters, a list of ten elements or a mapping of ten keys, once the
    entries before it have a length other than 10. *)
Theorem first_entry_of_length_10_is_selected
    (first x : value) (pre post : list value) :
  Py.get first "isbn" = Ok (VList (pre ++ x :: post)) ->
  Forall sized_not10 pre -> Py.len x = Ok 10 ->
  isbn_is first x.
Proof.
  intros Hisbn Hpre Hx. apply isbn_of_is.
  rewrite (isbn_of_list first _ Hisbn), scan_skips_sized by assumption.
  simpl. unfold mbind at 2, result_bind. rewrite Hx. reflexivity.
Qed.

Lemma first_entry_of_length_10_is_selected_witness :
  extractor (search_body (VDict valis_nested))
  = Ok (VStr "VALIS", VStr "Philip K. Dick",
        VList [VInt 0; VInt 6; VInt 7; VInt 9; VInt 7; VInt 3; VInt 4;
               VInt 4; VInt 6; VInt 5]).
Proof.
  refine (proj2 (first_entry_of_length_10_is_selected (VDict valis_nested)
                   (VList [VInt 0; VInt 6; VInt 7; VInt 9; VInt 7; VInt 3; VInt 4;
                           VInt 4; VInt 6; VInt 5])
                   [VStr "9780679734468"] [VInt 679734465] eq_refl _ eq_refl)
            (search_body (VDict valis_nested)) (VList [VDict valis_nested])
            (VStr "VALIS") (VList [VStr "Philip K. Dick"]) (VStr "Philip K. Dick")
            eq_refl eq_refl eq_refl eq_refl eq_refl).
  repeat constructor. exists 13. split; [reflexivity | discriminate].
Defined.

(** X10: an entry that has no length stops the extraction.  When the
    entries before it have a length other than 10, an entry that is [None],
    a boolean or a number makes the loop raise [TypeError], even if an
    entry of length 10 follows it. *)
Theorem entry_without_length_raises
    (first x : value) (pre post : list value) :
  Py.get first "isbn" = Ok (VList (pre ++ x :: post)) ->
  Forall sized_not10 pre -> is_scalar x = true ->
  isbn_raises first TypeError.
Proof.
  intros Hisbn Hpre Hx. apply isbn_of_raises.
  rewrite (isbn_of_list first _ Hisbn), scan_skips_sized by assumption.
  destruct x; try discriminate Hx; reflexivity.
Qed.

Lemma entry_without_length_raises_witness :
  extractor (search_body (VDict valis)) = Raise TypeError.
Proof.
  refine (proj1 (proj2 (entry_without_length_raises (VDict valis) (VInt 679734465)
                          [VStr "9780679734468"] [VStr "0679734465"] eq_refl _ eq_refl)
                   (search_body (VDict valis)) (VList [VDict valis])
                   (VStr "VALIS") (VList [VStr "Philip K. Dick"]) (VStr "Philip K. Dick")
                   eq_refl eq_refl eq_refl eq_refl eq_refl)).
  repeat constructor. exists 13. split; [reflexivity | discriminate].
Defined.

(** X11: when the [isbn] key of the first document is bound to a mapping,
    the loop goes over its keys in their order: the ISBN is the first key
    of length 10, and the empty string if no key has length 10. *)
Theorem isbn_given_as_a_mapping_scans_its_keys
    (first : value) (kvs : list (string * value)) :
  Py.get first "isbn" = Ok (VDict kvs) ->
  (forall pre k post, map fst kvs = (pre ++ k :: post)%list ->
     Forall not10 pre -> String.length k = 10 -> isbn_is first (VStr k))
  /\ (Forall not10 (map fst kvs) -> isbn_is first (VStr "")).
Proof.
  intros Hisbn.
  assert (Hof : isbn_of first
                = (o ← scan (map VStr (map fst kvs)); mret (default (VStr "") o))).
  { unfold isbn_of. rewrite Hisbn; pure. simpl. pure. rewrite List.map_map.
    reflexivity. }
  split.
  - intros pre k post Hkeys Hpre Hk. apply isbn_of_is.
    rewrite Hof, Hkeys, List.map_app. simpl.
    rewrite scan_hit by assumption. reflexivity.
  - intros Hall. apply isbn_of_is. rewrite Hof, scan_miss by assumption.
    reflexivity.
Qed.

Lemma isbn_given_as_a_mapping_scans_its_keys_witness :
  extractor (search_body (VDict valis_keyed))
  = Ok (VStr "VALIS", VStr "Philip K. Dick", VStr "0679734465").
Proof.
  refine (proj2 (proj1 (isbn_given_as_a_mapping_scans_its_keys (VDict valis_keyed)
                          [("9780679734468", VStr "paperback");
                           ("0679734465", VStr "paperback")] eq_refl)
                   ["9780679734468"] "0679734465" [] eq_refl _ eq_refl)
            (search_body (VDict valis_keyed)) (VList [VDict valis_keyed])
            (VStr "VALIS") (VList [VStr "Philip K. Dick"]) (VStr "Philip K. Dick")
            eq_refl eq_refl eq_refl eq_refl eq_refl).
  repeat constructor. unfold not10. simpl. discriminate.
Defined.

(** ** Values of another shape than the expected one *)

(** X12: when [author_name] of the first document is a string and not a
    sequence, the author the script keeps is its first character; an empty
    string makes the extractor raise [IndexError]. *)
Theorem author_given_as_a_string_is_cut
    (d docs first : value) (name : string) :
  Py.get d "docs" = Ok docs -> Py.getitem0 docs = Ok first ->
  Py.get first "author_name" = Ok (VStr name) ->
  match name with
  | EmptyString => fatal d IndexError
  | String c _ =>
      (forall g out, g !! "first_result" = Some first ->
         author_name_stmt (World g out)
         = (Ok tt, World (<["author_name" := VStr (String c EmptyString)]> g) out))
      /\ (forall s, isbn_of first = Ok s ->
            exists t, extractor d = Ok (t, VStr (String c EmptyString), s))
  end.
Proof.
  intros Hdocs Hfirst Han.
  assert (Ht : exists t, Py.get first "title" = Ok t).
  { destruct first; try discriminate. eexists. reflexivity. }
  destruct Ht as [t Ht]. destruct name as [|c name].
  - apply extractor_fatal. rewrite extractor_pure.
    unfold extract_pure, first_of, author_of.
    rewrite Hdocs; pure. rewrite Hfirst; pure. rewrite Ht; pure.
    rewrite Han. reflexivity.
  - split.
    + intros g out Hg. unfold author_name_stmt. run. rewrite Hg. simpl.
      rewrite Han. reflexivity.
    + intros s Hs. exists t.
      rewrite (extractor_isbn d docs first t (VStr (String c name))
                 (VStr (String c EmptyString)) Hdocs Hfirst Ht Han eq_refl).
      rewrite Hs. reflexivity.
Qed.

Lemma author_given_as_a_string_is_cut_witness :
  exists t, extractor (search_body (VDict ubik)) = Ok (t, VStr "P", VStr "").
Proof.
  exact (proj2 (author_given_as_a_string_is_cut (search_body (VDict ubik))
                  (VList [VDict ubik]) (VDict ubik) "Philip K. Dick"
                  eq_refl eq_refl eq_refl)
               (VStr "") eq_refl).
Defined.

(** X13: a decoded body that is not a mapping (a list, a string, a number,
    a boolean, [null]) has no [get]: the extractor raises
    [AttributeError], and the script stops without printing. *)
Theorem body_not_a_mapping_raises (d : value) :
  is_dict d = false -> fatal d AttributeError.
Proof.
  intros Hd. apply extractor_fatal. rewrite extractor_pure.
  destruct d; try discriminate Hd; reflexivity.
Qed.

Lemma body_not_a_mapping_raises_witness :
  extractor (VList [clans]) = Raise AttributeError.
Proof.
  exact (proj1 (body_not_a_mapping_raises (VList [clans]) eq_refl)).
Defined.

(** X14: when [docs] of the decoded mapping is bound to a mapping the
    extractor raises [KeyError], and when it is bound to [null], a boolean
    or a number it raises [TypeError]; the script stops without
    printing. *)
Theorem docs_of_another_shape_raises (top : list (string * value)) (docs : value) :
  Py.dict_lookup "docs" top = Some docs ->
  (is_dict docs = true -> fatal (VDict top) KeyError)
  /\ (is_scalar docs = true -> fatal (VDict top) TypeError).
Proof.
  intros Hdocs.
  split; intros Hshape; apply extractor_fatal; rewrite extractor_pure;
    unfold extract_pure, first_of; simpl; rewrite Hdocs; pure;
    destruct docs; try discriminate Hshape; reflexivity.
Qed.

Lemma docs_of_another_shape_raises_witness :
  extractor (VDict [("docs", VDict [("0", clans)])]) = Raise KeyError
  /\ extractor (VDict [("docs", VNone)]) = Raise TypeError.
Proof.
  split.
  - exact (proj1 (proj1 (docs_of_another_shape_raises [("docs", VDict [("0", clans)])]
                           (VDict [("0", clans)]) eq_refl) eq_refl)).
  - exact (proj1 (proj2 (docs_of_another_shape_raises [("docs", VNone)] VNone eq_refl)
                        eq_refl)).
Defined.

(** X15: when the first element of [docs] is not a mapping, the lookup of
    [title] on it raises [AttributeError] and the script stops without
    printing; so it is when [docs] is a non-empty string, whose first
    element is a character. *)
Theorem first_document_not_a_mapping_raises (d docs first : value) :
  Py.get d "docs" = Ok docs -> Py.getitem0 docs = Ok first ->
  is_dict first = false -> fatal d AttributeError.
Proof.
  intros Hdocs Hfirst Hshape. apply extractor_fatal. rewrite extractor_pure.
  unfold extract_pure, first_of. rewrite Hdocs; pure. rewrite Hfirst; pure.
  destruct first; try discriminate Hshape; reflexivity.
Qed.

Lemma first_document_not_a_mapping_raises_witness :
  extractor (VDict [("docs", VStr "none")]) = Raise AttributeError.
Proof.
  exact (proj1 (first_document_not_a_mapping_raises (VDict [("docs", VStr "none")])
                  (VStr "none") (VStr "n") eq_refl eq_refl eq_refl)).
Defined.
